(** * now-go: verification of [packages/now-go/go-helpers.ts]

    A shallow embedding of the helper module that provisions a Go
    toolchain and wraps its [get] and [build] commands.

    Data follows the source: JavaScript strings are [string], a [Map] of
    string pairs is an association list in which a later pair wins, an
    environment object is a [gmap string string], and the asynchronous
    functions are computations in a small state-and-error monad over a
    world made of the file system and the log of calls issued to the
    external collaborators ([fetch], [mkdirp], [tar.extract], [execa]).
    The [debug] calls only write to a diagnostic channel and are left out. *)

From Stdlib Require Import Ascii String.
From stdpp Require Import base option list strings gmap pretty.

Local Open Scope string_scope.
Local Open Scope list_scope.

(** ** JavaScript value conventions used by the module *)

Module Js.

(** [m.get(k)] on a [Map] built from an array of pairs: the last pair
    with a given key wins at construction, so the table is searched
    from the back; both tables of the module have distinct keys. *)
Fixpoint map_get (m : list (string * string)) (k : string) : option string :=
  match m with
  | [] => None
  | (k', v) :: m' =>
      match map_get m' k with
      | Some w => Some w
      | None => if decide (k' = k) then Some v else None
      end
  end.

(** A string is falsy exactly when it is empty; [undefined] is falsy. *)
Definition truthy (s : string) : bool :=
  match s with
  | "" => false
  | _ => true
  end.

(** [o || d] where [o] is a string or [undefined]. *)
Definition or_else (o : option string) (d : string) : string :=
  match o with
  | Some v => if truthy v then v else d
  | None => d
  end.

(** A template-literal hole: [undefined] prints as the word itself. *)
Definition interpolate (o : option string) : string :=
  match o with
  | Some v => v
  | None => "undefined"
  end.

End Js.

(** ** Platform and architecture names *)

Definition archMap : list (string * string) :=
  [("x64", "amd64"); ("x86", "386")].

Definition platformMap : list (string * string) :=
  [("win32", "windows")].

Definition getPlatform (p : string) : string :=
  Js.or_else (Js.map_get platformMap p) p.

Definition getArch (a : string) : string :=
  Js.or_else (Js.map_get archMap a) a.

(** ** Download URL *)

Definition getGoUrl (version platform arch : string) : string :=
  let goArch := getArch arch in
  let goPlatform := getPlatform platform in
  let ext := if decide (platform = "win32") then "zip" else "tar.gz" in
  "https://dl.google.com/go/go" +:+ version +:+ "." +:+ goPlatform +:+ "-"
    +:+ goArch +:+ "." +:+ ext.

(** The vendor base, the archive extension by platform family, and the
    file name of the distribution as the external interface gives it. *)
Definition vendor_base : string := "https://dl.google.com/go/".

Definition archive_ext (platform : string) : string :=
  if decide (platform = "win32") then "zip" else "tar.gz".

Definition ends_with (s suffix : string) : Prop :=
  ∃ front : string, s = front +:+ suffix.

Definition contains (s part : string) : Prop :=
  ∃ front back : string, s = front +:+ part +:+ back.

(** ** The world the module acts on *)

(** The file system as far as [mkdirp] sees it: the paths that are
    directories and the paths that are something else. *)
Record fs := Fs {
  dirs : gset string;
  files : gset string
}.

(** Options of a child process as [execa] receives them; a field that
    the caller left out is [None]. *)
Record exec_options := ExecOptions {
  x_stdio : option string;
  x_cwd : option string;
  x_env : option (gmap string string)
}.

Definition no_options : exec_options := ExecOptions None None None.

(** Calls issued to the external collaborators, in the order issued. *)
Inductive call :=
| CFetch (url : string)
| CMkdirp (path : string)
| CTarExtract (cwd : string) (strip : nat)
| CExeca (file : string) (args : list string) (options : exec_options).

Record world := World {
  w_fs : fs;
  w_log : list call
}.

Record response := Response {
  status : N;
  body : string
}.

(** [res.ok] of node-fetch: a status in the 2xx range. *)
Definition ok (res : response) : bool :=
  bool_decide (200 ≤ status res)%N && bool_decide (status res < 300)%N.

(** How piping the response body into the extractor ends. *)
Inductive stream_end := Finish | BodyError | ExtractError.

Record child_result := ChildResult {
  exit_code : Z;
  stdout : string
}.

(** What a promise of the module can reject with. *)
Inductive error :=
| Error (message : string)
| FetchRejected (url : string)
| MkdirpRejected (path : string)
| StreamRejected (cause : stream_end)
| ExecaRejected (file : string) (args : list string) (code : Z).

Inductive result (A : Type) :=
| Resolved (a : A)
| Rejected (e : error).
Arguments Resolved {A} a.
Arguments Rejected {A} e.

(** An asynchronous function: it runs on a world, leaves a world behind
    and settles its promise. *)
Definition io (A : Type) : Type := world → world * result A.

Definition io_ret {A} (a : A) : io A := λ w, (w, Resolved a).

Definition io_bind {A B} (m : io A) (k : A → io B) : io B :=
  λ w, match m w with
       | (w', Resolved a) => k a w'
       | (w', Rejected e) => (w', Rejected e)
       end.

Definition throw {A} (e : error) : io A := λ w, (w, Rejected e).

Global Instance io_mret : MRet io := @io_ret.
Global Instance io_mbind : MBind io := λ A B k m, io_bind m k.

(** [Promise.all([a, b])]: both computations are started, in order; the
    promise rejects when either does. *)
Definition promise_all2 {A B} (a : io A) (b : io B) : io (A * B) :=
  λ w, let '(w1, ra) := a w in
       let '(w2, rb) := b w1 in
       (w2, match ra, rb with
            | Resolved x, Resolved y => Resolved (x, y)
            | Rejected e, _ => Rejected e
            | _, Rejected e => Rejected e
            end).

Definition log_call (c : call) (w : world) : world :=
  World (w_fs w) (w_log w ++ [c]).

(** The options bag [opts] of [createGo], with the keys the module and
    [execa] read. *)
Record options := Options {
  opt_env : option (gmap string string);
  opt_cwd : option string;
  opt_stdio : option string
}.

Definition empty_opts : options := Options None None None.

(** The callable [go] with the properties attached to it; [go_env] and
    [go_opts] are the variables its closure captures. *)
Record go_handle := GoHandle {
  go_env : gmap string string;
  go_opts : options;
  go_cwd : string;
  go_goPath : string
}.

(** The argument of [build]: [src] is an array or a single path. *)
Inductive src_arg :=
| SrcOne (path : string)
| SrcArray (paths : list string).

(** strip-eof, applied by [execa] to captured output: one final line
    feed, then one final carriage return, are removed. *)
Fixpoint strip_last (c : ascii) (s : string) : string :=
  match s with
  | "" => ""
  | String a "" => if decide (a = c) then "" else s
  | String a s' => String a (strip_last c s')
  end.

Definition stripEof (s : string) : string :=
  strip_last "013"%char (strip_last "010"%char s).

(** ** The host

    Everything the module imports or reads from the process: the [path]
    functions, the ambient environment, and the behaviour of the network,
    of the extractor and of child processes. *)
Record host := Host {
  __dirname : string;
  process_env : gmap string string;
  process_cwd : string;
  join : list string → string;
  dirname : string → string;
  (** the directories above a path, as [mkdirp] walks them *)
  ancestors : string → list string;
  (** [None]: the request itself fails *)
  fetch_reply : string → option response;
  untar : string → string → nat → fs → fs * stream_end;
  spawn : string → list string → exec_options → fs → fs * child_result
}.

(** ** The module *)

Section GoHelpers.

Variable h : host.

(** *** External collaborators as computations *)

Definition fetch (url : string) : io response :=
  λ w, let w' := log_call (CFetch url) w in
       match fetch_reply h url with
       | Some res => (w', Resolved res)
       | None => (w', Rejected (FetchRejected url))
       end.

(** [mkdirp p] makes [p] and every missing directory above it; it
    rejects, making nothing, when a path on the way is not a
    directory; a directory already there is left as it is. *)
Definition mkdirp (p : string) : io unit :=
  λ w, let chain := p :: ancestors h p in
       let w' := log_call (CMkdirp p) w in
       if decide (Exists (λ q, q ∈ files (w_fs w)) chain)
       then (w', Rejected (MkdirpRejected p))
       else (World (Fs (dirs (w_fs w) ∪ list_to_set chain) (files (w_fs w)))
                   (w_log w'),
             Resolved ()).

(** [execa(file, args, options)]: the promise rejects on a non-zero
    exit code; captured output has its final newline stripped. *)
Definition execa (file : string) (args : list string)
    (options : exec_options) : io child_result :=
  λ w, let '(fs', r) := spawn h file args options (w_fs w) in
       let w' := World fs' (w_log w ++ [CExeca file args options]) in
       if decide (exit_code r = 0%Z)
       then (w', Resolved (ChildResult (exit_code r) (stripEof (stdout r))))
       else (w', Rejected (ExecaRejected file args (exit_code r))).

(** [execa.stdout(file, args)] is [execa(file, args).then(x => x.stdout)]. *)
Definition execa_stdout (file : string) (args : list string) : io string :=
  x ← execa file args no_options; mret (stdout x).

(** [res.body.pipe(tar.extract({ cwd, strip }))] wrapped in a promise
    that resolves on [finish] and rejects on either [error]. *)
Definition pipe_tar_extract (res : response) (cwd : string) (strip : nat)
    : io unit :=
  λ w, let '(fs', e) := untar h (body res) cwd strip (w_fs w) in
       let w' := World fs' (w_log w ++ [CTarExtract cwd strip]) in
       match e with
       | Finish => (w', Resolved ())
       | _ => (w', Rejected (StreamRejected e))
       end.

(** *** Module constants *)

Definition GO_DIR : string := join h [__dirname h; "go"].
Definition GO_BIN : string := join h [GO_DIR; "bin/go"].

(** *** [getExportedFunctionName] *)

Definition getExportedFunctionName (filePath : string) : io string :=
  let bin := join h [__dirname h; "get-exported-function-name"] in
  let args := [filePath] in
  name ← execa_stdout bin args;
  mret name.

(** *** [createGoPathTree] *)

Definition createGoPathTree (goPath platform arch : string)
    : io (unit * unit) :=
  let tuple := getPlatform platform +:+ "_" +:+ getArch arch in
  promise_all2
    (mkdirp (join h [goPath; "bin"]))
    (mkdirp (join h [goPath; "pkg"; tuple])).

(** *** The callable [go] and its methods *)

(** [{ stdio: 'inherit', ...opts, env }] *)
Definition go_exec_options (this : go_handle) : exec_options :=
  ExecOptions
    (Some (default "inherit" (opt_stdio (go_opts this))))
    (opt_cwd (go_opts this))
    (Some (go_env this)).

Definition go (this : go_handle) (args : list string) : io child_result :=
  execa "go" args (go_exec_options this).

(** The argument vector [get] builds before the call; [src] is
    [None] when the property is absent. *)
Definition get_args (src : option string) : list string :=
  let args := ["get"] in
  match src with
  | Some s => if Js.truthy s then args ++ [s] else args
  | None => args
  end.

Definition get (this : go_handle) (src : option string) : io unit :=
  go this (get_args src);; mret ().

Definition build_sources (src : src_arg) : list string :=
  match src with
  | SrcArray paths => paths
  | SrcOne path => [path]
  end.

Definition build_args (src : src_arg) (dest : string) : list string :=
  "build" :: "-o" :: dest :: build_sources src.

Definition build (this : go_handle) (src : src_arg) (dest : string)
    : io unit :=
  go this (build_args src dest);; mret ().

(** *** [createGo]

    The parameters are explicit here; in the source [platform] and
    [arch] default to those of the running process, [opts] to the empty
    object and [goMod] to false. *)

(** The object literal, then the conditional assignment. An object
    spread copies its keys over those written before it, which on maps
    is a union that prefers the spread operand. *)
Definition createGo_env (goPath : string) (opts : options)
    (goMod : bool) : gmap string string :=
  let env :=
    default ∅ (opt_env opts)
    ∪ <["GOPATH" := goPath]>
        (<["PATH" := dirname h GO_BIN +:+ ":"
                     +:+ Js.interpolate (process_env h !! "PATH")]>
           (process_env h)) in
  if goMod then <["GO111MODULE" := "on"]> env else env.

Definition createGo (goPath platform arch : string) (opts : options)
    (goMod : bool) : io go_handle :=
  let env := createGo_env goPath opts goMod in
  let go :=
    GoHandle env opts
      (Js.or_else (opt_cwd opts) (process_cwd h))
      goPath in
  createGoPathTree goPath platform arch;;
  mret go.

(** *** [downloadGo]

    The parameters are explicit; in the source [dir] defaults to
    [GO_DIR] and [version] to the string 1.12. *)

Definition download_error (url : string) (res : response) : error :=
  Error ("Failed to download: " +:+ url +:+ " (" +:+ pretty (status res)
         +:+ ")").

Definition downloadGo (dir version platform arch : string) : io go_handle :=
  let url := getGoUrl version platform arch in
  res ← fetch url;
  if negb (ok res) then throw (download_error url res)
  else
    mkdirp dir;;
    pipe_tar_extract res dir 1;;
    createGo dir platform arch empty_opts false.

End GoHelpers.

(** ** Auxiliary notions for the statements *)

(** A path on the way to [p] exists and is not a directory. *)
Definition blocked (h : host) (f : fs) (p : string) : Prop :=
  Exists (λ q, q ∈ files f) (p :: ancestors h p).

(** The directories [mkdirp p] asks for: [p] and those above it. *)
Definition chain (h : host) (p : string) : gset string :=
  list_to_set (p :: ancestors h p).

(** ** A concrete host

    A POSIX-like instance of the host, used to run the module on
    concrete inputs: paths are joined with a slash, the directories above
    a path are its prefixes at each slash, the network answers every
    request with a fixed status, the extractor finishes without touching
    the file system, and every child process ends with a fixed result. *)
Module Demo.

Fixpoint cuts (front s : string) : list string :=
  match s with
  | "" => []
  | String c s' =>
      (if decide (c = "/"%char)
       then [match front with "" => "/" | _ => front end]
       else [])
      ++ cuts (front +:+ String c "") s'
  end.

Definition parents (p : string) : list string := cuts "" p.

Definition parent (p : string) : string := List.last (parents p) ".".

Definition host (reply : N) (child : child_result) : host :=
  {| __dirname := "/app";
     process_env := {[ "PATH" := "/usr/bin"; "HOME" := "/root" ]};
     process_cwd := "/work";
     join := String.concat "/";
     dirname := parent;
     ancestors := parents;
     fetch_reply := λ _, Some (Response reply "PK");
     untar := λ _ _ _ fs, (fs, Finish);
     spawn := λ _ _ _ fs, (fs, child) |}.

(** The detector prints nothing and exits with code zero. *)
Definition silent : child_result := ChildResult 0 "".

(** The detector prints a name and a newline. *)
Definition named : child_result := ChildResult 0 ("Handler" +:+ String "010" "").

Definition failing : child_result := ChildResult 2 "".

Definition empty_world : world := World (Fs ∅ ∅) [].

Definition handle : go_handle := GoHandle ∅ empty_opts "/work" "/w".

(** The world after the workspace [/w] was prepared for win32 and x64. *)
Definition prepared_world : world :=
  World
    (Fs (list_to_set ["/w/bin"; "/w"; "/"; "/w/pkg/windows_amd64"; "/w/pkg"]) ∅)
    [CMkdirp "/w/bin"; CMkdirp "/w/pkg/windows_amd64"].

(** The caller asks for module mode to be off. *)
Definition modules_off : options :=
  Options (Some {[ "GO111MODULE" := "off" ]}) None None.

End Demo.

(** ** Hosts and worlds in which something goes wrong *)
Module Faults.

(** The network is down: every request fails. *)
Definition offline : host :=
  {| __dirname := "/app";
     process_env := {[ "PATH" := "/usr/bin" ]};
     process_cwd := "/work";
     join := String.concat "/";
     dirname := Demo.parent;
     ancestors := Demo.parents;
     fetch_reply := λ _, None;
     untar := λ _ _ _ fs, (fs, Finish);
     spawn := λ _ _ _ fs, (fs, Demo.silent) |}.

(** The archive is damaged: the extractor emits an error. *)
Definition corrupt : host :=
  {| __dirname := "/app";
     process_env := {[ "PATH" := "/usr/bin" ]};
     process_cwd := "/work";
     join := String.concat "/";
     dirname := Demo.parent;
     ancestors := Demo.parents;
     fetch_reply := λ _, Some (Response 200 "PK");
     untar := λ _ _ _ fs, (fs, ExtractError);
     spawn := λ _ _ _ fs, (fs, Demo.silent) |}.

(** The ambient environment has no search path. *)
Definition pathless : host :=
  {| __dirname := "/app";
     process_env := {[ "HOME" := "/root"; "GO111MODULE" := "on" ]};
     process_cwd := "/work";
     join := String.concat "/";
     dirname := Demo.parent;
     ancestors := Demo.parents;
     fetch_reply := λ _, Some (Response 200 "PK");
     untar := λ _ _ _ fs, (fs, Finish);
     spawn := λ _ _ _ fs, (fs, Demo.failing) |}.


(** A world in which [/app/go] is a regular file. *)
Definition go_dir_is_file : world :=
  World (Fs (list_to_set ["/"; "/app"]) {[ "/app/go" ]}) [].

End Faults.

(** Settles [blocked] and its negation on a concrete world. *)
Ltac settle_blocked :=
  unfold blocked;
  match goal with
  | |- ¬ ?P => apply (bool_decide_eq_false_1 P); vm_compute; reflexivity
  | |- ?P => apply (bool_decide_unpack P); vm_compute; exact I
  end.

(** Closes [x ∉ l] for a concrete list [l] without [x]. *)
Ltac not_in_list :=
  let Hin := fresh "Hin" in
  intros Hin;
  repeat (apply elem_of_cons in Hin as [? | Hin]; [done |]);
  by apply elem_of_nil in Hin.

(** * Properties *)

(** ** Strings *)

Lemma string_app_assoc (a b c : string) : (a +:+ b) +:+ c = a +:+ (b +:+ c).
Proof.
  induction a as [|x a IH]; [done |].
  change (String x ((a +:+ b) +:+ c) = String x (a +:+ (b +:+ c))).
  by f_equal.
Qed.

(** ** Platform and architecture names *)

Lemma getPlatform_unmapped (p : string) : p ≠ "win32" → getPlatform p = p.
Proof.
  intros Hp. unfold getPlatform, platformMap; simpl.
  by destruct (decide ("win32" = p)) as [<- | _].
Qed.

Lemma getArch_unmapped (a : string) : a ≠ "x64" → a ≠ "x86" → getArch a = a.
Proof.
  intros H64 H86. unfold getArch, archMap; simpl.
  destruct (decide ("x86" = a)) as [<- | _]; [done |].
  by destruct (decide ("x64" = a)) as [<- | _].
Qed.

(** C6. [getPlatform] and [getArch] are plain functions of their
    argument, defined on every string: every key of a remap table is sent
    to the vendor name the table pairs it with (x64 to amd64, x86 to 386,
    win32 to windows), and every string that is not a key of the table is
    returned unchanged. *)
Theorem resolve_platform_arch :
  getArch "x64" = "amd64" ∧ getArch "x86" = "386"
  ∧ getPlatform "win32" = "windows"
  ∧ (∀ k v : string, (k, v) ∈ archMap → getArch k = v)
  ∧ (∀ k v : string, (k, v) ∈ platformMap → getPlatform k = v)
  ∧ (∀ a : string, a ∉ archMap.*1 → getArch a = a)
  ∧ (∀ p : string, p ∉ platformMap.*1 → getPlatform p = p).
Proof.
  repeat split; try reflexivity.
  - intros k v Hin. unfold archMap in Hin.
    repeat (apply elem_of_cons in Hin as [[= -> ->] | Hin]; [reflexivity |]).
    by apply elem_of_nil in Hin.
  - intros k v Hin. unfold platformMap in Hin.
    repeat (apply elem_of_cons in Hin as [[= -> ->] | Hin]; [reflexivity |]).
    by apply elem_of_nil in Hin.
  - intros a Hnot. apply getArch_unmapped; intros ->; apply Hnot; simpl;
      repeat constructor.
  - intros p Hnot. apply getPlatform_unmapped; intros ->; apply Hnot; simpl;
      repeat constructor.
Qed.

Lemma resolve_platform_arch_witness :
  ("x64", "amd64") ∈ archMap ∧ getArch "x64" = "amd64"
  ∧ ("arm64" ∉ archMap.*1) ∧ getArch "arm64" = "arm64"
  ∧ ("linux" ∉ platformMap.*1) ∧ getPlatform "linux" = "linux".
Proof.
  destruct resolve_platform_arch as (_ & _ & _ & Ha & _ & Hai & Hpi).
  assert (H1 : ("x64", "amd64") ∈ archMap) by constructor.
  assert (H2 : "arm64" ∉ archMap.*1) by (simpl; not_in_list).
  assert (H3 : "linux" ∉ platformMap.*1) by (simpl; not_in_list).
  exact (conj H1 (conj (Ha _ _ H1) (conj H2 (conj (Hai _ H2)
           (conj H3 (Hpi _ H3)))))).
Defined.

(** ** Download URL *)

(** C2. The download URL is the vendor base followed by
    [go<version>.<resolvedPlatform>-<resolvedArch>.<ext>], where the
    extension is [zip] for the platform win32 and [tar.gz] for every
    other platform; for version 1.12 on win32/x64 it ends in
    [windows-amd64.zip] and on linux/x64 in [linux-amd64.tar.gz]. *)
Theorem getGoUrl_shape (version platform arch : string) :
  getGoUrl version platform arch
  = vendor_base +:+ "go" +:+ version +:+ "." +:+ getPlatform platform +:+ "-"
      +:+ getArch arch +:+ "." +:+ archive_ext platform
  ∧ archive_ext platform = (if decide (platform = "win32") then "zip" else "tar.gz")
  ∧ ends_with (getGoUrl "1.12" "win32" "x64") "windows-amd64.zip"
  ∧ ends_with (getGoUrl "1.12" "linux" "x64") "linux-amd64.tar.gz".
Proof.
  split; [reflexivity |]. split; [reflexivity |]. split.
  - by exists "https://dl.google.com/go/go1.12.".
  - by exists "https://dl.google.com/go/go1.12.".
Qed.

(** ** Child processes *)

Section Invocations.

Variable h : host.

Lemma execa_log file args options w :
  w_log (execa h file args options w).1 = w_log w ++ [CExeca file args options].
Proof.
  unfold execa. destruct (spawn h file args options (w_fs w)) as [fs' r].
  by destruct (decide (exit_code r = 0%Z)).
Qed.

Lemma then_unit_world {A} (m : io A) w :
  (m;; mret ()) w
  = ((m w).1,
     match (m w).2 with
     | Resolved _ => Resolved ()
     | Rejected e => Rejected e
     end).
Proof.
  unfold mbind, io_mbind, io_bind. by destruct (m w) as [w' [a | e]].
Qed.

Lemma go_log this args w :
  w_log (go h this args w).1
  = w_log w ++ [CExeca "go" args (go_exec_options this)].
Proof. apply execa_log. Qed.

Lemma get_log this src w :
  w_log (get h this src w).1
  = w_log w ++ [CExeca "go" (get_args src) (go_exec_options this)].
Proof. unfold get. rewrite then_unit_world. apply go_log. Qed.

Lemma build_log this src dest w :
  w_log (build h this src dest w).1
  = w_log w ++ [CExeca "go" (build_args src dest) (go_exec_options this)].
Proof. unfold build. rewrite then_unit_world. apply go_log. Qed.

(** [build] settles as the child process does: it resolves when the
    exit code is zero and otherwise rejects with [execa]'s error. *)
Lemma build_outcome this src dest w :
  (build h this src dest w).2
  = let code := exit_code (spawn h "go" (build_args src dest)
                             (go_exec_options this) (w_fs w)).2 in
    if decide (code = 0%Z) then Resolved ()
    else Rejected (ExecaRejected "go" (build_args src dest) code).
Proof.
  unfold build. rewrite then_unit_world. unfold go, execa. simpl.
  destruct (spawn h "go" (build_args src dest) (go_exec_options this) (w_fs w))
    as [fs' r]; simpl.
  by destruct (decide (exit_code r = 0%Z)).
Qed.

End Invocations.

(** C8. [build] called with a single path [s] runs exactly as [build]
    called with the array [[s]]: the same toolchain invocation, the same
    world and the same outcome; the command is [build -o <dest>] followed
    by the sources in their given order, for the single path and for
    every array of sources. *)
Theorem build_single_as_singleton (h : host) (this : go_handle)
    (dest s : string) (w : world) :
  build h this (SrcOne s) dest w = build h this (SrcArray [s]) dest w
  ∧ w_log (build h this (SrcOne s) dest w).1
    = w_log w ++ [CExeca "go" ["build"; "-o"; dest; s] (go_exec_options this)]
  ∧ ∀ paths : list string,
      w_log (build h this (SrcArray paths) dest w).1
      = w_log w ++ [CExeca "go" (["build"; "-o"; dest] ++ paths)
                      (go_exec_options this)].
Proof.
  split; [reflexivity |]. split.
  - apply build_log.
  - intros paths. apply build_log.
Qed.

(** C9. [get] called without a source path runs the toolchain with the
    single word [get]; called with a source path [p] it runs [get p],
    with [p] as the only argument. A source path is a non-empty string:
    the test [if (src)] takes the empty string for an absent path. *)
Theorem get_invocation (h : host) (this : go_handle) (w : world) :
  w_log (get h this None w).1
  = w_log w ++ [CExeca "go" ["get"] (go_exec_options this)]
  ∧ ∀ p : string, p ≠ "" →
      w_log (get h this (Some p) w).1
      = w_log w ++ [CExeca "go" ["get"; p] (go_exec_options this)].
Proof.
  split; [apply get_log |].
  intros p Hp. rewrite get_log. unfold get_args.
  by destruct p.
Qed.

Lemma get_invocation_witness :
  "main.go" ≠ ""
  ∧ w_log (get (Demo.host 200 Demo.silent) Demo.handle (Some "main.go")
             Demo.empty_world).1
    = [CExeca "go" ["get"; "main.go"] (go_exec_options Demo.handle)].
Proof.
  assert (Hne : "main.go" ≠ "") by discriminate.
  split; [exact Hne |].
  exact (proj2 (get_invocation (Demo.host 200 Demo.silent) Demo.handle
                  Demo.empty_world) "main.go" Hne).
Defined.

(** The empty string as [src] is falsy and no argument is appended. *)
Lemma get_empty_string_src (h : host) (this : go_handle) (w : world) :
  get h this (Some "") w = get h this None w.
Proof. reflexivity. Qed.

(** C10. [build] does not check that its source array is non-empty: with
    an empty array it runs the invocation [build -o <dest>] with nothing
    appended, and it settles as that child process does, resolving when
    the exit code is zero; the only rejection is the one [execa] raises
    for a non-zero exit code. *)
Theorem build_empty_sources (h : host) (this : go_handle) (dest : string)
    (w : world) :
  w_log (build h this (SrcArray []) dest w).1
  = w_log w ++ [CExeca "go" ["build"; "-o"; dest] (go_exec_options this)]
  ∧ (build h this (SrcArray []) dest w).2
    = let code := exit_code (spawn h "go" ["build"; "-o"; dest]
                               (go_exec_options this) (w_fs w)).2 in
      if decide (code = 0%Z) then Resolved ()
      else Rejected (ExecaRejected "go" ["build"; "-o"; dest] code).
Proof.
  split; [apply build_log | apply build_outcome].
Qed.

(** ** Entry-point detection *)

(** C3, as the code has it. [getExportedFunctionName] runs the detector
    with the source file path as its only argument. When the detector
    exits with code zero the call returns its standard output with the
    final line terminator stripped, whatever that output is, the empty
    string included; when the detector exits with another code the call
    fails with [execa]'s error and returns no value. *)
Theorem getExportedFunctionName_outcome (h : host) (filePath : string)
    (w : world) :
  let bin := join h [__dirname h; "get-exported-function-name"] in
  let child := (spawn h bin [filePath] no_options (w_fs w)).2 in
  w_log (getExportedFunctionName h filePath w).1
  = w_log w ++ [CExeca bin [filePath] no_options]
  ∧ (exit_code child = 0%Z →
     (getExportedFunctionName h filePath w).2
     = Resolved (stripEof (stdout child)))
  ∧ (exit_code child ≠ 0%Z →
     (getExportedFunctionName h filePath w).2
     = Rejected (ExecaRejected bin [filePath] (exit_code child))).
Proof.
  intros bin child. subst child.
  unfold getExportedFunctionName, execa_stdout, execa, mbind, io_mbind, io_bind,
    mret, io_mret, io_ret.
  fold bin. destruct (spawn h bin [filePath] no_options (w_fs w)) as [fs' r].
  simpl. destruct (decide (exit_code r = 0%Z)) as [Hz | Hnz]; simpl.
  - split; [done |]. split; [done |]. intros Hne. by destruct Hne.
  - split; [done |]. split; [| done]. intros Hz. by destruct Hnz.
Qed.

Lemma getExportedFunctionName_outcome_witness :
  (exit_code Demo.named = 0%Z
   ∧ (getExportedFunctionName (Demo.host 200 Demo.named) "main.go"
        Demo.empty_world).2 = Resolved "Handler")
  ∧ (exit_code Demo.failing ≠ 0%Z
     ∧ (getExportedFunctionName (Demo.host 200 Demo.failing) "main.go"
          Demo.empty_world).2
       = Rejected (ExecaRejected "/app/get-exported-function-name"
                     ["main.go"] 2)).
Proof.
  assert (Hz : exit_code Demo.named = 0%Z) by reflexivity.
  assert (Hnz : exit_code Demo.failing ≠ 0%Z) by discriminate.
  split; (split; [eassumption |]).
  - exact (proj1 (proj2 (getExportedFunctionName_outcome
                           (Demo.host 200 Demo.named) "main.go"
                           Demo.empty_world)) Hz).
  - exact (proj2 (proj2 (getExportedFunctionName_outcome
                           (Demo.host 200 Demo.failing) "main.go"
                           Demo.empty_world)) Hnz).
Defined.

(** C3, as stated, fails: a detector that exits with code zero and
    prints nothing makes the call return the empty string, not fail. *)
Lemma getExportedFunctionName_empty_output :
  ¬ (stdout Demo.silent = "" →
     ∃ e : error,
       (getExportedFunctionName (Demo.host 200 Demo.silent) "main.go"
          Demo.empty_world).2 = Rejected e).
Proof.
  intros Hclaim. destruct (Hclaim eq_refl) as [e He].
  vm_compute in He. discriminate He.
Qed.

(** ** Provisioning *)

Lemma contains_middle (front part back : string) :
  contains (front +:+ part +:+ back) part.
Proof. by exists front, back. Qed.

(** C5. When the response to the download request is not successful,
    [downloadGo] rejects with an error whose message contains the URL it
    requested and the status code; the only call it has issued is the
    request itself, so nothing was extracted and no directory was made,
    the file system is as it was, and no handle is returned. *)
Theorem downloadGo_unsuccessful_response (h : host)
    (dir version platform arch : string) (w : world) (res : response) :
  let url := getGoUrl version platform arch in
  fetch_reply h url = Some res →
  ok res = false →
  ∃ message : string,
    downloadGo h dir version platform arch w
    = (World (w_fs w) (w_log w ++ [CFetch url]), Rejected (Error message))
    ∧ contains message url
    ∧ contains message (pretty (status res)).
Proof.
  intros url Hreply Hok.
  exists ("Failed to download: " +:+ url +:+ " (" +:+ pretty (status res) +:+ ")").
  split; [| split].
  - unfold downloadGo, fetch, mbind, io_mbind, io_bind. fold url.
    rewrite Hreply. simpl. by rewrite Hok.
  - apply contains_middle.
  - exists ("Failed to download: " +:+ url +:+ " ("), ")".
    by rewrite !string_app_assoc.
Qed.

Lemma downloadGo_unsuccessful_response_witness :
  ∃ message : string,
    downloadGo (Demo.host 404 Demo.silent) "/app/go" "1.12" "linux" "x64"
      Demo.empty_world
    = (World (Fs ∅ ∅)
         [CFetch "https://dl.google.com/go/go1.12.linux-amd64.tar.gz"],
       Rejected (Error message))
    ∧ contains message "https://dl.google.com/go/go1.12.linux-amd64.tar.gz"
    ∧ contains message "404".
Proof.
  exact (downloadGo_unsuccessful_response (Demo.host 404 Demo.silent)
           "/app/go" "1.12" "linux" "x64" Demo.empty_world
           (Response 404 "PK") eq_refl eq_refl).
Defined.

(** C4, evaluated on the code. For the platform win32 the archive asked
    for is a zip file, and [downloadGo] hands its body to the tar
    extractor all the same: when the response is successful and the
    extractor finishes, the call resolves with a handle, having issued
    [tar.extract] and no check of the archive format. *)
Theorem downloadGo_win32_uses_tar :
  ends_with (getGoUrl "1.12" "win32" "x64") ".zip"
  ∧ w_log (downloadGo (Demo.host 200 Demo.silent) "/app/go" "1.12" "win32"
             "x64" Demo.empty_world).1
    = [CFetch "https://dl.google.com/go/go1.12.windows-amd64.zip";
       CMkdirp "/app/go"; CTarExtract "/app/go" 1;
       CMkdirp "/app/go/bin"; CMkdirp "/app/go/pkg/windows_amd64"]
  ∧ ∃ go : go_handle,
      (downloadGo (Demo.host 200 Demo.silent) "/app/go" "1.12" "win32" "x64"
         Demo.empty_world).2 = Resolved go.
Proof.
  split; [by exists "https://dl.google.com/go/go1.12.windows-amd64" |].
  split; [by vm_compute |].
  eexists. vm_compute. reflexivity.
Qed.

(** On a successful response the rest of [downloadGo] is the same for
    every platform: the directory is made, the body goes through the tar
    extractor, and the handle is created. *)
Lemma downloadGo_successful_response (h : host)
    (dir version platform arch : string) (w : world) (res : response) :
  fetch_reply h (getGoUrl version platform arch) = Some res →
  ok res = true →
  downloadGo h dir version platform arch w
  = (mkdirp h dir;; pipe_tar_extract h res dir 1;;
     createGo h dir platform arch empty_opts false)
      (log_call (CFetch (getGoUrl version platform arch)) w).
Proof.
  intros Hreply Hok.
  unfold downloadGo, fetch. unfold mbind at 1, io_mbind at 1, io_bind at 1.
  rewrite Hreply. simpl. by rewrite Hok.
Qed.

(** ** Workspace preparation *)

Section Workspace.

Variable h : host.

Lemma mkdirp_unfold p w :
  mkdirp h p w
  = if decide (blocked h (w_fs w) p)
    then (log_call (CMkdirp p) w, Rejected (MkdirpRejected p))
    else (World (Fs (dirs (w_fs w) ∪ chain h p) (files (w_fs w)))
                (w_log w ++ [CMkdirp p]),
          Resolved ()).
Proof. reflexivity. Qed.

Lemma mkdirp_log p w : w_log (mkdirp h p w).1 = w_log w ++ [CMkdirp p].
Proof. rewrite mkdirp_unfold. by destruct (decide _). Qed.

(** Making a directory that a successful [mkdirp] has made before
    succeeds and changes nothing on disk. *)
Lemma mkdirp_again p w w' :
  mkdirp h p w = (w', Resolved ()) →
  ∀ w'' : world,
    files (w_fs w'') = files (w_fs w) →
    chain h p ⊆ dirs (w_fs w'') →
    (mkdirp h p w'').2 = Resolved () ∧ w_fs (mkdirp h p w'').1 = w_fs w''.
Proof.
  rewrite !mkdirp_unfold. destruct (decide (blocked h (w_fs w) p)) as [|Hfree];
    [done |].
  intros _ [[d f] l] Hfiles Hsub. simpl in *. subst f.
  rewrite mkdirp_unfold. simpl.
  destruct (decide _) as [|_]; [done |]. simpl. split; [done |].
  f_equal. apply subseteq_union_L in Hsub. by rewrite (comm_L (∪)).
Qed.

(** The two runs of [mkdirp] inside [createGoPathTree], spelled out. *)
Lemma createGoPathTree_unfold goPath platform arch w :
  let bin := join h [goPath; "bin"] in
  let pkg := join h [goPath; "pkg"; getPlatform platform +:+ "_" +:+ getArch arch] in
  createGoPathTree h goPath platform arch w
  = let a := mkdirp h bin w in
    let b := mkdirp h pkg a.1 in
    (b.1, match a.2, b.2 with
          | Resolved x, Resolved y => Resolved (x, y)
          | Rejected e, _ => Rejected e
          | _, Rejected e => Rejected e
          end).
Proof.
  intros bin pkg. unfold createGoPathTree, promise_all2. fold bin pkg.
  destruct (mkdirp h bin w) as [w1 ra]; simpl.
  by destruct (mkdirp h pkg w1) as [w2 rb].
Qed.

End Workspace.

(** C7. [createGoPathTree] asks for exactly two directories,
    [<goPath>/bin] and [<goPath>/pkg/<tuple>], where the tuple is made of
    the resolved platform and architecture names (for win32 and x64 it is
    [windows_amd64]). When nothing on the way is a non-directory it
    succeeds; after a success the directories on disk are those from
    before together with the two requested ones and the directories above
    them, and files are untouched; and a second run on the resulting
    world succeeds again and leaves the file system as it is. *)
Theorem createGoPathTree_prepare (h : host) (goPath platform arch : string)
    (w : world) :
  let tuple := getPlatform platform +:+ "_" +:+ getArch arch in
  let bin := join h [goPath; "bin"] in
  let pkg := join h [goPath; "pkg"; tuple] in
  let prepare := createGoPathTree h goPath platform arch in
  w_log (prepare w).1 = w_log w ++ [CMkdirp bin; CMkdirp pkg]
  ∧ getPlatform "win32" +:+ "_" +:+ getArch "x64" = "windows_amd64"
  ∧ (¬ blocked h (w_fs w) bin → ¬ blocked h (w_fs w) pkg →
     (prepare w).2 = Resolved ((), ()))
  ∧ ∀ (w1 : world) (r : unit * unit),
      prepare w = (w1, Resolved r) →
      dirs (w_fs w1) = dirs (w_fs w) ∪ chain h bin ∪ chain h pkg
      ∧ files (w_fs w1) = files (w_fs w)
      ∧ (prepare w1).2 = Resolved r
      ∧ w_fs (prepare w1).1 = w_fs w1.
Proof.
  intros tuple bin pkg prepare. subst prepare.
  split; [| split; [reflexivity | split]].
  - rewrite createGoPathTree_unfold. simpl. fold tuple bin pkg.
    rewrite !mkdirp_log. by rewrite <- app_assoc.
  - intros Hbin Hpkg. rewrite createGoPathTree_unfold. simpl.
    fold tuple bin pkg. rewrite !mkdirp_unfold.
    destruct (decide (blocked h (w_fs w) bin)); [done |]. simpl.
    by destruct (decide (blocked h _ pkg)).
  - intros w1 r Hrun.
    rewrite createGoPathTree_unfold in Hrun. simpl in Hrun.
    fold tuple bin pkg in Hrun.
    destruct (mkdirp h bin w) as [wa ra] eqn:Ha. simpl in Hrun.
    destruct (mkdirp h pkg wa) as [wb rb] eqn:Hb. simpl in Hrun.
    destruct ra as [[] | ea]; [| by destruct rb].
    destruct rb as [[] | eb]; [| done].
    injection Hrun as <- <-.
    assert (Hwa : w_fs wa = Fs (dirs (w_fs w) ∪ chain h bin) (files (w_fs w))).
    { rewrite mkdirp_unfold in Ha. destruct (decide _); [done |].
      by injection Ha as <-. }
    assert (Hwb : w_fs wb = Fs (dirs (w_fs wa) ∪ chain h pkg) (files (w_fs wa))).
    { rewrite mkdirp_unfold in Hb. destruct (decide _); [done |].
      by injection Hb as <-. }
    rewrite Hwb, Hwa. simpl. split; [done |]. split; [done |].
    rewrite createGoPathTree_unfold. simpl. fold tuple bin pkg.
    destruct (mkdirp_again h bin w wa Ha wb) as [Hr1 Hf1].
    { by rewrite Hwb, Hwa. }
    { rewrite Hwb, Hwa. simpl. rewrite <- (assoc_L (∪)).
      apply union_subseteq_r'. apply union_subseteq_l. }
    destruct (mkdirp h bin wb) as [wc rc]. simpl in Hr1, Hf1. subst rc. simpl.
    destruct (mkdirp_again h pkg wa wb Hb wc) as [Hr2 Hf2].
    { by rewrite Hf1, Hwb. }
    { rewrite Hf1, Hwb. simpl. apply union_subseteq_r. }
    by rewrite Hr2, Hf2, Hf1, Hwb, Hwa.
Qed.

Lemma not_blocked_without_files (h : host) (d : gset string) (p : string) :
  ¬ blocked h (Fs d ∅) p.
Proof.
  unfold blocked. intros Hex. apply Exists_exists in Hex as (q & _ & Hq).
  simpl in Hq. by apply not_elem_of_empty in Hq.
Qed.

Lemma createGoPathTree_prepare_witness :
  (¬ blocked (Demo.host 200 Demo.silent) (w_fs Demo.empty_world) "/w/bin"
   ∧ ¬ blocked (Demo.host 200 Demo.silent) (w_fs Demo.empty_world)
         "/w/pkg/windows_amd64"
   ∧ (createGoPathTree (Demo.host 200 Demo.silent) "/w" "win32" "x64"
        Demo.empty_world).2 = Resolved ((), ()))
  ∧ (createGoPathTree (Demo.host 200 Demo.silent) "/w" "win32" "x64"
       Demo.empty_world
     = (Demo.prepared_world, Resolved ((), ()))
     ∧ (createGoPathTree (Demo.host 200 Demo.silent) "/w" "win32" "x64"
          Demo.prepared_world).2 = Resolved ((), ())
     ∧ w_fs (createGoPathTree (Demo.host 200 Demo.silent) "/w" "win32" "x64"
               Demo.prepared_world).1 = w_fs Demo.prepared_world).
Proof.
  pose proof (not_blocked_without_files (Demo.host 200 Demo.silent) ∅ "/w/bin")
    as Hbin.
  pose proof (not_blocked_without_files (Demo.host 200 Demo.silent) ∅
                "/w/pkg/windows_amd64") as Hpkg.
  assert (Hrun : createGoPathTree (Demo.host 200 Demo.silent) "/w" "win32"
                   "x64" Demo.empty_world
                 = (Demo.prepared_world, Resolved ((), ())))
    by (vm_compute; reflexivity).
  pose proof (createGoPathTree_prepare (Demo.host 200 Demo.silent) "/w"
                "win32" "x64" Demo.empty_world) as (_ & _ & Hok & Hagain).
  destruct (Hagain _ _ Hrun) as (_ & _ & Hres & Hfs).
  exact (conj (conj Hbin (conj Hpkg (Hok Hbin Hpkg)))
              (conj Hrun (conj Hres Hfs))).
Defined.

(** ** The composed environment *)

Section Environment.

Variable h : host.

Lemma createGo_env_modules goPath opts :
  createGo_env h goPath opts true !! "GO111MODULE" = Some "on".
Proof. unfold createGo_env. apply lookup_insert_eq. Qed.

(** A name the caller supplies keeps the caller's value, unless it is
    the module flag and module mode is requested. *)
Lemma createGo_env_caller goPath opts goMod k v :
  default ∅ (opt_env opts) !! k = Some v →
  ¬ (goMod = true ∧ k = "GO111MODULE") →
  createGo_env h goPath opts goMod !! k = Some v.
Proof.
  intros Hk Hflag. unfold createGo_env. destruct goMod.
  - rewrite lookup_insert_ne by (intros <-; by apply Hflag).
    by apply lookup_union_Some_l.
  - by apply lookup_union_Some_l.
Qed.

(** A name the caller does not supply has the value the module gives
    it, when module mode is not requested or the name is not the flag. *)
Lemma createGo_env_default goPath opts goMod k :
  default ∅ (opt_env opts) !! k = None →
  ¬ (goMod = true ∧ k = "GO111MODULE") →
  createGo_env h goPath opts goMod !! k
  = <["GOPATH" := goPath]>
      (<["PATH" := dirname h (GO_BIN h) +:+ ":"
                   +:+ Js.interpolate (process_env h !! "PATH")]>
         (process_env h)) !! k.
Proof.
  intros Hk Hflag. unfold createGo_env. destruct goMod.
  - rewrite lookup_insert_ne by (intros <-; by apply Hflag).
    by apply lookup_union_r.
  - by apply lookup_union_r.
Qed.

(** A handle that [createGo] returns carries the composed environment,
    and every toolchain invocation through it runs under it. *)
Lemma createGo_handle goPath platform arch opts goMod w w' go :
  createGo h goPath platform arch opts goMod w = (w', Resolved go) →
  go_env go = createGo_env h goPath opts goMod
  ∧ x_env (go_exec_options go) = Some (createGo_env h goPath opts goMod).
Proof.
  unfold createGo, mbind, io_mbind, io_bind.
  destruct (createGoPathTree h goPath platform arch w) as [w1 [r | e]];
    [| done].
  by intros [= _ <-].
Qed.

End Environment.

(** C1, as the code has it. The environment composed by [createGo] is
    the one every returned handle runs the toolchain under. In it the
    search path is the toolchain's binary directory, a colon and the
    ambient search path, and the workspace variable is [goPath], in both
    cases unless [opts.env] supplies the name; the module flag is "on"
    whenever [goMod] is true, whatever [opts.env] says; and every other
    name that [opts.env] supplies has the caller's value. *)
Theorem createGo_env_precedence (h : host) (goPath platform arch : string)
    (opts : options) (goMod : bool) :
  let env := createGo_env h goPath opts goMod in
  let caller := default ∅ (opt_env opts) in
  (∀ (w w' : world) (go : go_handle),
     createGo h goPath platform arch opts goMod w = (w', Resolved go) →
     go_env go = env ∧ x_env (go_exec_options go) = Some env)
  ∧ (caller !! "PATH" = None →
     env !! "PATH"
     = Some (dirname h (GO_BIN h) +:+ ":"
             +:+ Js.interpolate (process_env h !! "PATH")))
  ∧ (caller !! "GOPATH" = None → env !! "GOPATH" = Some goPath)
  ∧ (goMod = true → env !! "GO111MODULE" = Some "on")
  ∧ (∀ k v : string,
       caller !! k = Some v →
       ¬ (goMod = true ∧ k = "GO111MODULE") →
       env !! k = Some v).
Proof.
  intros env caller. subst env caller.
  split; [| split; [| split; [| split]]].
  - intros w w' go. apply createGo_handle.
  - intros Hk. rewrite createGo_env_default by (done || by intros [_ [=]]).
    rewrite lookup_insert_ne by done. apply lookup_insert_eq.
  - intros Hk. rewrite createGo_env_default by (done || by intros [_ [=]]).
    apply lookup_insert_eq.
  - intros ->. apply createGo_env_modules.
  - intros k v. apply createGo_env_caller.
Qed.

Lemma createGo_env_precedence_witness :
  (default ∅ (opt_env Demo.modules_off) !! "PATH" = None
   ∧ createGo_env (Demo.host 200 Demo.silent) "/w" Demo.modules_off true
       !! "PATH" = Some "/app/go/bin:/usr/bin"
   ∧ createGo_env (Demo.host 200 Demo.silent) "/w" Demo.modules_off true
       !! "GOPATH" = Some "/w"
   ∧ createGo_env (Demo.host 200 Demo.silent) "/w" Demo.modules_off true
       !! "GO111MODULE" = Some "on")
  ∧ (default ∅ (opt_env Demo.modules_off) !! "GO111MODULE" = Some "off"
     ∧ createGo_env (Demo.host 200 Demo.silent) "/w" Demo.modules_off false
         !! "GO111MODULE" = Some "off").
Proof.
  assert (Hpath : default ∅ (opt_env Demo.modules_off) !! "PATH" = None)
    by reflexivity.
  assert (Hgopath : default ∅ (opt_env Demo.modules_off) !! "GOPATH" = None)
    by reflexivity.
  assert (Hflag : default ∅ (opt_env Demo.modules_off) !! "GO111MODULE"
                  = Some "off") by reflexivity.
  assert (Hoff : ¬ (false = true ∧ "GO111MODULE" = "GO111MODULE"))
    by (intros [Hft _]; discriminate Hft).
  destruct (createGo_env_precedence (Demo.host 200 Demo.silent) "/w" "linux"
              "x64" Demo.modules_off true) as (_ & HP & HG & HM & _).
  destruct (createGo_env_precedence (Demo.host 200 Demo.silent) "/w" "linux"
              "x64" Demo.modules_off false) as (_ & _ & _ & _ & HC).
  exact (conj (conj Hpath (conj (HP Hpath) (conj (HG Hgopath) (HM eq_refl))))
              (conj Hflag (HC _ _ Hflag Hoff))).
Defined.

(** C1, as stated, fails: with [goMod] true, a caller that supplies the
    module flag in [opts.env] does not get its value. *)
Lemma createGo_env_module_flag_forced :
  ¬ (∀ k v : string,
       default ∅ (opt_env Demo.modules_off) !! k = Some v →
       createGo_env (Demo.host 200 Demo.silent) "/w" Demo.modules_off true !! k
       = Some v).
Proof.
  intros Hclaim.
  specialize (Hclaim "GO111MODULE" "off" eq_refl).
  rewrite createGo_env_modules in Hclaim. discriminate Hclaim.
Qed.

(** * Further properties of the module *)

(** ** Resolved names are fixed points *)

Lemma getPlatform_idem (p : string) : getPlatform (getPlatform p) = getPlatform p.
Proof.
  destruct (decide (p = "win32")) as [-> | Hp]; [reflexivity |].
  rewrite (getPlatform_unmapped p Hp). by apply getPlatform_unmapped.
Qed.

Lemma getArch_idem (a : string) : getArch (getArch a) = getArch a.
Proof.
  destruct (decide (a = "x64")) as [-> | H64]; [reflexivity |].
  destruct (decide (a = "x86")) as [-> | H86]; [reflexivity |].
  rewrite (getArch_unmapped a H64 H86). by apply getArch_unmapped.
Qed.

(** X1. Resolving a name that is already resolved changes nothing: no
    vendor name in a table is itself a key of that table. *)
Theorem resolve_idempotent (p a : string) :
  getPlatform (getPlatform p) = getPlatform p
  ∧ getArch (getArch a) = getArch a.
Proof. split; [apply getPlatform_idem | apply getArch_idem]. Qed.

(** X2. The workspace is prepared in the same way whether the caller
    passes host names or the vendor names they resolve to. *)
Theorem createGoPathTree_vendor_names (h : host) (goPath p a : string) :
  createGoPathTree h goPath (getPlatform p) (getArch a)
  = createGoPathTree h goPath p a.
Proof.
  unfold createGoPathTree. by rewrite getPlatform_idem, getArch_idem.
Qed.

(** X3. The download URL is the same for an architecture and for the
    vendor name it resolves to, but not so for the platform: the archive
    extension is chosen from the name as passed, so the vendor name of
    win32 yields an address that differs from the one of win32 itself and
    ends in [tar.gz]. *)
Theorem getGoUrl_vendor_names (version p a : string) :
  getGoUrl version p (getArch a) = getGoUrl version p a
  ∧ getGoUrl version (getPlatform "win32") a ≠ getGoUrl version "win32" a
  ∧ ends_with (getGoUrl version (getPlatform "win32") a) ".tar.gz".
Proof.
  split; [| split].
  - unfold getGoUrl. by rewrite getArch_idem.
  - unfold getGoUrl. simpl. intros Heq.
    do 7 apply (inj (String.app _)) in Heq. discriminate Heq.
  - exists ("https://dl.google.com/go/go" +:+ version +:+ ".windows-"
            +:+ getArch a).
    unfold getGoUrl. simpl. by rewrite !string_app_assoc.
Qed.

(** ** What the composed environment inherits *)

(** X4. Every variable of the ambient environment that [opts.env] does
    not name, other than the search path and the workspace variable, is
    passed on unchanged, and a variable absent from both stays absent;
    the one exception is the module flag when [goMod] is true. In
    particular, with [goMod] false an ambient module flag reaches the
    toolchain as it is. *)
Theorem createGo_env_inherits (h : host) (goPath : string) (opts : options)
    (goMod : bool) (k : string) :
  default ∅ (opt_env opts) !! k = None →
  k ≠ "PATH" →
  k ≠ "GOPATH" →
  ¬ (goMod = true ∧ k = "GO111MODULE") →
  createGo_env h goPath opts goMod !! k = process_env h !! k.
Proof.
  intros Hk Hpath Hgopath Hflag.
  rewrite createGo_env_default by done.
  by rewrite !lookup_insert_ne.
Qed.

Lemma createGo_env_inherits_witness :
  createGo_env Faults.pathless "/w" empty_opts false !! "GO111MODULE"
  = Some "on"
  ∧ createGo_env Faults.pathless "/w" empty_opts true !! "HOME"
    = Some "/root"
  ∧ createGo_env Faults.pathless "/w" empty_opts true !! "GOROOT" = None.
Proof.
  split; [| split].
  - refine (createGo_env_inherits Faults.pathless "/w" empty_opts false
              "GO111MODULE" eq_refl _ _ _);
      [discriminate | discriminate | intros [Hft _]; discriminate Hft].
  - refine (createGo_env_inherits Faults.pathless "/w" empty_opts true
              "HOME" eq_refl _ _ _);
      [discriminate | discriminate | intros [_ Hk]; discriminate Hk].
  - refine (createGo_env_inherits Faults.pathless "/w" empty_opts true
              "GOROOT" eq_refl _ _ _);
      [discriminate | discriminate | intros [_ Hk]; discriminate Hk].
Defined.

(** X5. The search path and the workspace variable are always defined
    in the composed environment. When neither the ambient environment nor
    [opts.env] has a search path, the template still prints the missing
    value: the search path is the toolchain's binary directory followed
    by a colon and the word [undefined]. *)
Theorem createGo_env_path_defined (h : host) (goPath : string)
    (opts : options) (goMod : bool) :
  is_Some (createGo_env h goPath opts goMod !! "PATH")
  ∧ is_Some (createGo_env h goPath opts goMod !! "GOPATH")
  ∧ (process_env h !! "PATH" = None →
     default ∅ (opt_env opts) !! "PATH" = None →
     createGo_env h goPath opts goMod !! "PATH"
     = Some (dirname h (GO_BIN h) +:+ ":undefined")).
Proof.
  assert (Hpath : ¬ (goMod = true ∧ "PATH" = "GO111MODULE"))
    by (intros [_ Hk]; discriminate Hk).
  assert (Hgopath : ¬ (goMod = true ∧ "GOPATH" = "GO111MODULE"))
    by (intros [_ Hk]; discriminate Hk).
  split; [| split].
  - destruct (default ∅ (opt_env opts) !! "PATH") as [v |] eqn:Hk.
    + exists v. by apply createGo_env_caller.
    + rewrite createGo_env_default by done.
      rewrite lookup_insert_ne by done. rewrite lookup_insert_eq. by eexists.
  - destruct (default ∅ (opt_env opts) !! "GOPATH") as [v |] eqn:Hk.
    + exists v. by apply createGo_env_caller.
    + rewrite createGo_env_default by done.
      rewrite lookup_insert_eq. by eexists.
  - intros Hambient Hk. rewrite createGo_env_default by done.
    rewrite lookup_insert_ne by done. rewrite lookup_insert_eq.
    by rewrite Hambient.
Qed.

Lemma createGo_env_path_defined_witness :
  createGo_env Faults.pathless "/w" empty_opts false !! "PATH"
  = Some "/app/go/bin:undefined".
Proof.
  exact (proj2 (proj2 (createGo_env_path_defined Faults.pathless "/w"
                         empty_opts false)) eq_refl eq_refl).
Defined.

(** ** Workspace preparation, case by case *)

(** Both directories are always asked for; what is made and how the
    promise settles depends on which of the two is blocked. *)
Lemma createGoPathTree_cases (h : host) (goPath platform arch : string)
    (w : world) :
  let bin := join h [goPath; "bin"] in
  let pkg := join h [goPath; "pkg"; getPlatform platform +:+ "_" +:+ getArch arch] in
  let log := w_log w ++ [CMkdirp bin; CMkdirp pkg] in
  let d := dirs (w_fs w) in
  let f := files (w_fs w) in
  createGoPathTree h goPath platform arch w
  = if decide (blocked h (w_fs w) bin)
    then if decide (blocked h (w_fs w) pkg)
         then (World (w_fs w) log, Rejected (MkdirpRejected bin))
         else (World (Fs (d ∪ chain h pkg) f) log,
               Rejected (MkdirpRejected bin))
    else if decide (blocked h (w_fs w) pkg)
         then (World (Fs (d ∪ chain h bin) f) log,
               Rejected (MkdirpRejected pkg))
         else (World (Fs (d ∪ chain h bin ∪ chain h pkg) f) log,
               Resolved ((), ())).
Proof.
  intros bin pkg log d f. subst log d f.
  rewrite createGoPathTree_unfold. simpl. fold bin pkg.
  rewrite (mkdirp_unfold h bin w).
  destruct (decide (blocked h (w_fs w) bin)) as [Hb | Hb]; simpl;
    rewrite mkdirp_unfold; simpl.
  - change (blocked h (w_fs (log_call (CMkdirp bin) w)) pkg)
      with (blocked h (w_fs w) pkg).
    destruct (decide (blocked h (w_fs w) pkg)); unfold log_call; simpl;
      by rewrite <- app_assoc.
  - change (blocked h (Fs (dirs (w_fs w) ∪ chain h bin) (files (w_fs w))) pkg)
      with (blocked h (w_fs w) pkg).
    destruct (decide (blocked h (w_fs w) pkg)); unfold log_call; simpl;
      by rewrite <- app_assoc.
Qed.

(** ** Creating a handle *)

Lemma createGo_unfold (h : host) (goPath platform arch : string)
    (opts : options) (goMod : bool) (w : world) :
  createGo h goPath platform arch opts goMod w
  = match createGoPathTree h goPath platform arch w with
    | (w1, Resolved _) =>
        (w1, Resolved (GoHandle (createGo_env h goPath opts goMod) opts
                         (Js.or_else (opt_cwd opts) (process_cwd h)) goPath))
    | (w1, Rejected e) => (w1, Rejected e)
    end.
Proof. reflexivity. Qed.

(** X6. Whenever [createGo] returns a handle, both workspace directories
    exist on disk, every directory that was there before is still there
    and no file was touched; the handle records the workspace root and
    the options it was given, and its working directory is [opts.cwd], or
    the working directory of the process when [opts.cwd] is absent or
    empty. *)
Theorem createGo_prepares_workspace (h : host)
    (goPath platform arch : string) (opts : options) (goMod : bool)
    (w w' : world) (go : go_handle) :
  createGo h goPath platform arch opts goMod w = (w', Resolved go) →
  join h [goPath; "bin"] ∈ dirs (w_fs w')
  ∧ join h [goPath; "pkg"; getPlatform platform +:+ "_" +:+ getArch arch]
      ∈ dirs (w_fs w')
  ∧ dirs (w_fs w) ⊆ dirs (w_fs w')
  ∧ files (w_fs w') = files (w_fs w)
  ∧ go_goPath go = goPath
  ∧ go_opts go = opts
  ∧ go_cwd go = match opt_cwd opts with
                | Some c => if decide (c = "") then process_cwd h else c
                | None => process_cwd h
                end.
Proof.
  rewrite createGo_unfold, createGoPathTree_cases.
  destruct (decide (blocked h (w_fs w) _)); [by destruct (decide _) |].
  destruct (decide (blocked h (w_fs w) _)); [done |].
  intros [= <- <-]. simpl. unfold chain.
  split; [set_solver |]. split; [set_solver |]. split; [set_solver |].
  split; [done |]. split; [done |]. split; [done |].
  destruct (opt_cwd opts) as [[| c0 c] |]; done.
Qed.

Lemma createGo_prepares_workspace_witness :
  "/w/bin" ∈ dirs (w_fs Demo.prepared_world)
  ∧ "/w/pkg/windows_amd64" ∈ dirs (w_fs Demo.prepared_world).
Proof.
  pose proof (createGo_prepares_workspace (Demo.host 200 Demo.silent) "/w"
                "win32" "x64" empty_opts false Demo.empty_world
                Demo.prepared_world
                (GoHandle (createGo_env (Demo.host 200 Demo.silent) "/w"
                             empty_opts false)
                   empty_opts "/work" "/w")) as Hgo.
  destruct Hgo as (Hbin & Hpkg & _); [by vm_compute |].
  exact (conj Hbin Hpkg).
Defined.



(** ** Failures of the toolchain *)


(** ** Provisioning, path by path *)

(** What [downloadGo] does once the response is in and successful. *)
Lemma install_cases (h : host) (res : response) (dir platform arch : string)
    (w : world) :
  (mkdirp h dir;; pipe_tar_extract h res dir 1;;
   createGo h dir platform arch empty_opts false) w
  = if decide (blocked h (w_fs w) dir)
    then (World (w_fs w) (w_log w ++ [CMkdirp dir]),
          Rejected (MkdirpRejected dir))
    else
      let made := Fs (dirs (w_fs w) ∪ chain h dir) (files (w_fs w)) in
      let out := untar h (body res) dir 1 made in
      let w2 := World out.1 (w_log w ++ [CMkdirp dir; CTarExtract dir 1]) in
      match out.2 with
      | Finish => createGo h dir platform arch empty_opts false w2
      | e => (w2, Rejected (StreamRejected e))
      end.
Proof.
  unfold mbind, io_mbind, io_bind. rewrite mkdirp_unfold.
  destruct (decide (blocked h (w_fs w) dir)); [done |].
  unfold pipe_tar_extract. simpl.
  destruct (untar h (body res) dir 1 _) as [fs2 e]. simpl.
  rewrite <- app_assoc. simpl. by destruct e.
Qed.

(** X9. When the request itself fails, [downloadGo] rejects with that
    failure; it has made no directory and extracted nothing. *)
Theorem downloadGo_request_fails (h : host)
    (dir version platform arch : string) (w : world) :
  fetch_reply h (getGoUrl version platform arch) = None →
  downloadGo h dir version platform arch w
  = (World (w_fs w) (w_log w ++ [CFetch (getGoUrl version platform arch)]),
     Rejected (FetchRejected (getGoUrl version platform arch))).
Proof.
  intros Hreply. unfold downloadGo, fetch, mbind, io_mbind, io_bind.
  by rewrite Hreply.
Qed.

Lemma downloadGo_request_fails_witness :
  downloadGo Faults.offline "/app/go" "1.12" "linux" "x64" Demo.empty_world
  = (World (Fs ∅ ∅)
       [CFetch "https://dl.google.com/go/go1.12.linux-amd64.tar.gz"],
     Rejected (FetchRejected
                 "https://dl.google.com/go/go1.12.linux-amd64.tar.gz")).
Proof.
  exact (downloadGo_request_fails Faults.offline "/app/go" "1.12" "linux"
           "x64" Demo.empty_world eq_refl).
Defined.

(** X10. When the install directory cannot be made, [downloadGo]
    rejects with [mkdirp]'s error after a successful download: the
    extractor is never started and no workspace is prepared. *)
Theorem downloadGo_install_dir_blocked (h : host)
    (dir version platform arch : string) (w : world) (res : response) :
  fetch_reply h (getGoUrl version platform arch) = Some res →
  ok res = true →
  blocked h (w_fs w) dir →
  downloadGo h dir version platform arch w
  = (World (w_fs w)
       (w_log w ++ [CFetch (getGoUrl version platform arch); CMkdirp dir]),
     Rejected (MkdirpRejected dir)).
Proof.
  intros Hreply Hok Hdir.
  rewrite (downloadGo_successful_response h _ _ _ _ _ res Hreply Hok).
  rewrite install_cases. simpl.
  destruct (decide (blocked h (w_fs w) dir)); [| done].
  by rewrite <- app_assoc.
Qed.

Lemma downloadGo_install_dir_blocked_witness :
  blocked (Demo.host 200 Demo.silent) (w_fs Faults.go_dir_is_file) "/app/go"
  ∧ (downloadGo (Demo.host 200 Demo.silent) "/app/go" "1.12" "linux" "x64"
       Faults.go_dir_is_file).2 = Rejected (MkdirpRejected "/app/go").
Proof.
  assert (Hdir : blocked (Demo.host 200 Demo.silent)
                   (w_fs Faults.go_dir_is_file) "/app/go") by settle_blocked.
  split; [exact Hdir |].
  rewrite (downloadGo_install_dir_blocked (Demo.host 200 Demo.silent)
             "/app/go" "1.12" "linux" "x64" Faults.go_dir_is_file
             (Response 200 "PK") eq_refl eq_refl Hdir).
  reflexivity.
Defined.

(** X11. When the stream of the download or the extractor emits an
    error, [downloadGo] rejects with it; the install directory has been
    made and is left with whatever the extractor wrote, no workspace
    directory is asked for and no handle is returned. *)
Theorem downloadGo_stream_fails (h : host)
    (dir version platform arch : string) (w : world) (res : response) :
  let made := Fs (dirs (w_fs w) ∪ chain h dir) (files (w_fs w)) in
  let out := untar h (body res) dir 1 made in
  fetch_reply h (getGoUrl version platform arch) = Some res →
  ok res = true →
  ¬ blocked h (w_fs w) dir →
  out.2 ≠ Finish →
  downloadGo h dir version platform arch w
  = (World out.1
       (w_log w ++ [CFetch (getGoUrl version platform arch); CMkdirp dir;
                    CTarExtract dir 1]),
     Rejected (StreamRejected out.2)).
Proof.
  intros made out Hreply Hok Hdir Hend.
  rewrite (downloadGo_successful_response h _ _ _ _ _ res Hreply Hok).
  rewrite install_cases. simpl.
  destruct (decide (blocked h (w_fs w) dir)); [done |].
  fold made out. rewrite <- app_assoc. simpl.
  by destruct (out.2).
Qed.

Lemma downloadGo_stream_fails_witness :
  downloadGo Faults.corrupt "/app/go" "1.12" "linux" "x64" Demo.empty_world
  = (World (Fs (list_to_set ["/app/go"; "/"; "/app"]) ∅)
       [CFetch "https://dl.google.com/go/go1.12.linux-amd64.tar.gz";
        CMkdirp "/app/go"; CTarExtract "/app/go" 1],
     Rejected (StreamRejected ExtractError)).
Proof.
  assert (Hdir : ¬ blocked Faults.corrupt (w_fs Demo.empty_world) "/app/go")
    by settle_blocked.
  rewrite (downloadGo_stream_fails Faults.corrupt "/app/go" "1.12" "linux"
             "x64" Demo.empty_world (Response 200 "PK") eq_refl eq_refl Hdir);
    [by vm_compute | discriminate].
Defined.

(** X12. When the response is successful, the install directory can be
    made, the extraction finishes and nothing blocks the workspace
    directories afterwards, [downloadGo] resolves. It has issued, in this
    order, the request, the creation of the install directory, the
    extraction into it with one path component stripped, and the two
    workspace creations under the install directory. The handle it
    returns has the install directory as workspace root, no options, the
    working directory of the process, and the environment [createGo]
    composes without module mode. *)
Theorem downloadGo_installs (h : host) (dir version platform arch : string)
    (w : world) (res : response) :
  let url := getGoUrl version platform arch in
  let made := Fs (dirs (w_fs w) ∪ chain h dir) (files (w_fs w)) in
  let out := untar h (body res) dir 1 made in
  let bin := join h [dir; "bin"] in
  let pkg := join h [dir; "pkg"; getPlatform platform +:+ "_" +:+ getArch arch] in
  fetch_reply h url = Some res →
  ok res = true →
  ¬ blocked h (w_fs w) dir →
  out.2 = Finish →
  ¬ blocked h out.1 bin →
  ¬ blocked h out.1 pkg →
  downloadGo h dir version platform arch w
  = (World (Fs (dirs out.1 ∪ chain h bin ∪ chain h pkg) (files out.1))
       (w_log w ++ [CFetch url; CMkdirp dir; CTarExtract dir 1;
                    CMkdirp bin; CMkdirp pkg]),
     Resolved (GoHandle (createGo_env h dir empty_opts false) empty_opts
                 (process_cwd h) dir)).
Proof.
  intros url made out bin pkg Hreply Hok Hdir Hend Hbin Hpkg.
  rewrite (downloadGo_successful_response h _ _ _ _ _ res Hreply Hok).
  rewrite install_cases. simpl.
  destruct (decide (blocked h (w_fs w) dir)); [done |].
  fold url made out. rewrite Hend.
  rewrite createGo_unfold, createGoPathTree_cases. simpl. fold bin pkg.
  destruct (decide (blocked h out.1 bin)); [done |].
  destruct (decide (blocked h out.1 pkg)); [done |].
  by rewrite <- !app_assoc.
Qed.

Lemma downloadGo_installs_witness :
  downloadGo (Demo.host 200 Demo.silent) "/app/go" "1.12" "linux" "x64"
    Demo.empty_world
  = (World
       (Fs (list_to_set ["/app/go"; "/"; "/app"; "/app/go/bin";
                         "/app/go/pkg/linux_amd64"; "/app/go/pkg"]) ∅)
       [CFetch "https://dl.google.com/go/go1.12.linux-amd64.tar.gz";
        CMkdirp "/app/go"; CTarExtract "/app/go" 1;
        CMkdirp "/app/go/bin"; CMkdirp "/app/go/pkg/linux_amd64"],
     Resolved (GoHandle
                 (createGo_env (Demo.host 200 Demo.silent) "/app/go"
                    empty_opts false)
                 empty_opts "/work" "/app/go")).
Proof.
  assert (Hdir : ¬ blocked (Demo.host 200 Demo.silent)
                     (w_fs Demo.empty_world) "/app/go") by settle_blocked.
  rewrite (downloadGo_installs (Demo.host 200 Demo.silent) "/app/go" "1.12"
             "linux" "x64" Demo.empty_world (Response 200 "PK")
             eq_refl eq_refl Hdir eq_refl);
    [by vm_compute | settle_blocked | settle_blocked].
Defined.

(** X13. Whatever happens, [downloadGo] issues one of four call
    sequences, each a beginning of the next: the request; then the
    creation of the install directory; then the extraction; then the two
    workspace creations. It asks for the archive once and never starts a
    child process, and it returns a handle only after the full
    sequence. *)
Theorem downloadGo_call_sequences (h : host)
    (dir version platform arch : string) (w : world) :
  let url := getGoUrl version platform arch in
  let bin := join h [dir; "bin"] in
  let pkg := join h [dir; "pkg"; getPlatform platform +:+ "_" +:+ getArch arch] in
  let run := downloadGo h dir version platform arch w in
  ∃ calls : list call,
    w_log run.1 = w_log w ++ calls
    ∧ calls ∈ [ [CFetch url];
                [CFetch url; CMkdirp dir];
                [CFetch url; CMkdirp dir; CTarExtract dir 1];
                [CFetch url; CMkdirp dir; CTarExtract dir 1;
                 CMkdirp bin; CMkdirp pkg] ]
    ∧ (∀ go : go_handle,
         run.2 = Resolved go →
         calls = [CFetch url; CMkdirp dir; CTarExtract dir 1;
                  CMkdirp bin; CMkdirp pkg]).
Proof.
  intros url bin pkg run. subst run.
  destruct (fetch_reply h url) as [res |] eqn:Hreply.
  2: { exists [CFetch url].
       unfold downloadGo, fetch, mbind, io_mbind, io_bind. fold url.
       rewrite Hreply. simpl.
       split; [done |]. split; [by left | done]. }
  destruct (ok res) eqn:Hok.
  2: { exists [CFetch url].
       unfold downloadGo, fetch, mbind, io_mbind, io_bind. fold url.
       rewrite Hreply. simpl. rewrite Hok. simpl.
       split; [done |]. split; [by left | done]. }
  unfold url in Hreply.
  rewrite (downloadGo_successful_response h _ _ _ _ _ res Hreply Hok).
  fold url. rewrite install_cases. simpl.
  destruct (decide (blocked h (w_fs w) dir)).
  { exists [CFetch url; CMkdirp dir]. simpl. rewrite <- app_assoc.
    split; [done |]. split; [by right; left | done]. }
  destruct (untar h (body res) dir 1 _) as [fs2 e]. simpl.
  destruct e.
  - exists [CFetch url; CMkdirp dir; CTarExtract dir 1; CMkdirp bin;
            CMkdirp pkg].
    rewrite createGo_unfold, createGoPathTree_cases. simpl. fold bin pkg.
    split; [| split; [by do 3 right; left | done]].
    destruct (decide (blocked h fs2 bin)), (decide (blocked h fs2 pkg));
      simpl; by rewrite <- !app_assoc.
  - exists [CFetch url; CMkdirp dir; CTarExtract dir 1]. simpl.
    rewrite <- app_assoc. split; [done |].
    split; [by do 2 right; left | done].
  - exists [CFetch url; CMkdirp dir; CTarExtract dir 1]. simpl.
    rewrite <- app_assoc. split; [done |].
    split; [by do 2 right; left | done].
Qed.

Lemma downloadGo_call_sequences_witness :
  w_log (downloadGo (Demo.host 200 Demo.silent) "/app/go" "1.12" "linux"
           "x64" Demo.empty_world).1
  = [CFetch "https://dl.google.com/go/go1.12.linux-amd64.tar.gz";
     CMkdirp "/app/go"; CTarExtract "/app/go" 1;
     CMkdirp "/app/go/bin"; CMkdirp "/app/go/pkg/linux_amd64"].
Proof.
  destruct (downloadGo_call_sequences (Demo.host 200 Demo.silent) "/app/go"
              "1.12" "linux" "x64" Demo.empty_world)
    as (calls & Hlog & _ & Hfull).
  rewrite Hlog.
  rewrite (Hfull (GoHandle (createGo_env (Demo.host 200 Demo.silent)
                              "/app/go" empty_opts false)
                    empty_opts "/work" "/app/go")); [reflexivity |].
  by vm_compute.
Defined.

(** ** Handles in use *)

(** X14. Creating a handle again for a workspace that [createGo] has
    already prepared succeeds, returns an equal handle and leaves the
    file system as it is. *)
Theorem createGo_again (h : host) (goPath platform arch : string)
    (opts : options) (goMod : bool) (w w1 : world) (go : go_handle) :
  createGo h goPath platform arch opts goMod w = (w1, Resolved go) →
  (createGo h goPath platform arch opts goMod w1).2 = Resolved go
  ∧ w_fs (createGo h goPath platform arch opts goMod w1).1 = w_fs w1.
Proof.
  rewrite !createGo_unfold, !createGoPathTree_cases.
  set (bin := join h [goPath; "bin"]).
  set (pkg := join h [goPath; "pkg"; _]).
  destruct (decide (blocked h (w_fs w) bin)) as [| Hbin];
    [by destruct (decide _) |].
  destruct (decide (blocked h (w_fs w) pkg)) as [| Hpkg]; [done |].
  intros [= <- <-]. simpl.
  change (blocked h (Fs (dirs (w_fs w) ∪ chain h bin ∪ chain h pkg)
                        (files (w_fs w))) bin)
    with (blocked h (w_fs w) bin).
  change (blocked h (Fs (dirs (w_fs w) ∪ chain h bin ∪ chain h pkg)
                        (files (w_fs w))) pkg)
    with (blocked h (w_fs w) pkg).
  destruct (decide (blocked h (w_fs w) bin)); [done |].
  destruct (decide (blocked h (w_fs w) pkg)); [done |].
  simpl. split; [done |]. f_equal.
  rewrite <- !(assoc_L (∪)).
  rewrite (assoc_L (∪) (chain h bin) (chain h pkg) (chain h bin ∪ chain h pkg)).
  by rewrite (idemp_L (∪) (chain h bin ∪ chain h pkg)).
Qed.

Lemma createGo_again_witness :
  (createGo (Demo.host 200 Demo.silent) "/w" "win32" "x64" empty_opts false
     Demo.prepared_world).2
  = Resolved (GoHandle (createGo_env (Demo.host 200 Demo.silent) "/w"
                          empty_opts false)
                empty_opts "/work" "/w")
  ∧ w_fs (createGo (Demo.host 200 Demo.silent) "/w" "win32" "x64" empty_opts
            false Demo.prepared_world).1 = w_fs Demo.prepared_world.
Proof.
  apply (createGo_again (Demo.host 200 Demo.silent) "/w" "win32" "x64"
           empty_opts false Demo.empty_world).
  by vm_compute.
Defined.

(** X15. Every [get] and [build] through a handle that [createGo]
    returned starts the program [go] with the environment [createGo]
    composed, with [opts.cwd] as given and with the standard streams
    inherited unless [opts.stdio] says otherwise. *)
Theorem createGo_handle_invocations (h : host)
    (goPath platform arch : string) (opts : options) (goMod : bool)
    (w w' : world) (go : go_handle) :
  createGo h goPath platform arch opts goMod w = (w', Resolved go) →
  let options :=
    ExecOptions (Some (match opt_stdio opts with
                       | Some s => s
                       | None => "inherit"
                       end))
      (opt_cwd opts)
      (Some (createGo_env h goPath opts goMod)) in
  ∀ w2 : world,
    (∀ src : option string,
       w_log (get h go src w2).1
       = w_log w2 ++ [CExeca "go" (get_args src) options])
    ∧ (∀ (src : src_arg) (dest : string),
         w_log (build h go src dest w2).1
         = w_log w2 ++ [CExeca "go" (build_args src dest) options]).
Proof.
  rewrite createGo_unfold.
  destruct (createGoPathTree h goPath platform arch w) as [w1 [r | e]];
    [| done].
  intros [= _ <-] options w2. subst options.
  split.
  - intros src. rewrite get_log. unfold go_exec_options. simpl.
    by destruct (opt_stdio opts).
  - intros src dest. rewrite build_log. unfold go_exec_options. simpl.
    by destruct (opt_stdio opts).
Qed.

Lemma createGo_handle_invocations_witness :
  w_log (build (Demo.host 200 Demo.silent)
           (GoHandle (createGo_env (Demo.host 200 Demo.silent) "/w"
                        Demo.modules_off true)
              Demo.modules_off "/work" "/w")
           (SrcArray ["a.go"; "b.go"]) "out" Demo.prepared_world).1
  = w_log Demo.prepared_world
    ++ [CExeca "go" ["build"; "-o"; "out"; "a.go"; "b.go"]
          (ExecOptions (Some "inherit") None
             (Some (createGo_env (Demo.host 200 Demo.silent) "/w"
                      Demo.modules_off true)))].
Proof.
  refine (proj2 (createGo_handle_invocations (Demo.host 200 Demo.silent) "/w"
                   "win32" "x64" Demo.modules_off true Demo.empty_world
                   Demo.prepared_world _ _ Demo.prepared_world)
            (SrcArray ["a.go"; "b.go"]) "out").
  by vm_compute.
Defined.
